(** * The country shape-map renderer of malloy-render

    A shallow embedding of [HTMLCountryRenderer]
    (packages/malloy-render/src/html/country_shape_map.ts): the selection of
    the region and color fields, the per-cell value mapping, the encoding-type
    classification and the assembly of the layered Vega-Lite specification,
    followed by the properties the specification of the renderer states
    about them.

    Conventions of the embedding:
    - a JavaScript value that ends up in the Vega-Lite specification is a
      [Json] tree; an object is a finite map from property names to values
      and a later property of a literal overrides an earlier one;
    - [throw] is the [Throw] case of [Result]; reading a property of
      [undefined] is the runtime [TypeError];
    - a function or object of the JavaScript runtime, such as the methods
      of [Object.prototype], is a [JBuiltin] with its name;
    - JavaScript numbers are only copied by this renderer, never computed
      with, and are embedded as [Z];
    - [===] on [Field] objects is decidable equality of the field
      descriptors: inside one [Explore] the fields are the values of a map
      keyed by name, so a field is identified by its parent and its name. *)

From Stdlib Require Import ZArith.
From stdpp Require Import base option list gmap strings fin_maps.

#[local] Set Warnings "-register-all".
#[local] Open Scope string_scope.

(** ** Exceptions and results *)

Inductive Exception : Type :=
| Error (message : string)
| TypeError (reading : string).

Inductive Result (A : Type) : Type :=
| Ok (a : A)
| Throw (e : Exception).

Arguments Ok {A} a.
Arguments Throw {A} e.

#[global] Instance Result_ret : MRet Result := λ A, Ok.

#[global] Instance Result_bind : MBind Result := λ A B k r,
  match r with
  | Ok a => k a
  | Throw e => Throw e
  end.

#[global] Instance Result_fmap : FMap Result := λ A B f r,
  match r with
  | Ok a => Ok (f a)
  | Throw e => Throw e
  end.

(** ** Values of the Vega-Lite specification *)

Inductive Json : Type :=
| JUndefined
| JBool (b : bool)
| JNumber (n : Z)
| JString (s : string)
| JArray (items : list Json)
| JObject (props : gmap string Json)
| JBuiltin (name : string).

(** [o[k]]: the value of a property, [undefined] when the object has none. *)
Definition get (o : gmap string Json) (k : string) : Json :=
  default JUndefined (o !! k).

(** [j.k] on an arbitrary value of the specification. *)
Definition member (k : string) (j : Json) : Json :=
  match j with
  | JObject o => get o k
  | _ => JUndefined
  end.

Definition isUndefined (j : Json) : bool :=
  match j with
  | JUndefined => true
  | _ => false
  end.

(** Properties are defined in order, a later one replacing an earlier one of
    the same name; [assign o props] is [{...o, props}]. *)
Definition assign (o : gmap string Json) (props : list (string * Json)) : gmap string Json :=
  foldl (λ acc p, <[p.1 := p.2]> acc) o props.

Definition object (props : list (string * Json)) : Json :=
  JObject (assign ∅ props).

(** The members an ordinary object inherits from [Object.prototype]. *)
Definition objectPrototype : gmap string Json :=
  assign ∅ [
    ("constructor", JBuiltin "Object");
    ("__defineGetter__", JBuiltin "Object.prototype.__defineGetter__");
    ("__defineSetter__", JBuiltin "Object.prototype.__defineSetter__");
    ("hasOwnProperty", JBuiltin "Object.prototype.hasOwnProperty");
    ("__lookupGetter__", JBuiltin "Object.prototype.__lookupGetter__");
    ("__lookupSetter__", JBuiltin "Object.prototype.__lookupSetter__");
    ("isPrototypeOf", JBuiltin "Object.prototype.isPrototypeOf");
    ("propertyIsEnumerable", JBuiltin "Object.prototype.propertyIsEnumerable");
    ("toString", JBuiltin "Object.prototype.toString");
    ("valueOf", JBuiltin "Object.prototype.valueOf");
    ("__proto__", JBuiltin "Object.prototype");
    ("toLocaleString", JBuiltin "Object.prototype.toLocaleString")
  ].

(** [table[key]] on a table of numbers that is an ordinary object: the own
    entry, else the member inherited from [Object.prototype], else
    [undefined]. *)
Definition propertyOf (table : gmap string Z) (key : string) : Json :=
  match table !! key with
  | Some id => JNumber id
  | None => default JUndefined (objectPrototype !! key)
  end.

(** ** The schema of a result: Explore and Field *)

Inductive AtomicFieldType : Type :=
| StringType
| NumberType
| BooleanType
| DateType
| TimestampType
| JsonType.

Inductive FieldKind : Type :=
| AtomicField (type : AtomicFieldType)
| QueryField
| ExploreField.

Record FieldDef : Type := {
  def_name : string;
  def_kind : FieldKind
}.

Record Explore : Type := {
  fieldDefs : list FieldDef
}.

Record Field : Type := {
  name : string;
  kind : FieldKind;
  parentExplore : Explore
}.

#[global] Instance AtomicFieldType_eq_dec : EqDecision AtomicFieldType.
Proof. solve_decision. Defined.

#[global] Instance FieldKind_eq_dec : EqDecision FieldKind.
Proof. solve_decision. Defined.

#[global] Instance FieldDef_eq_dec : EqDecision FieldDef.
Proof. solve_decision. Defined.

#[global] Instance Explore_eq_dec : EqDecision Explore.
Proof. solve_decision. Defined.

#[global] Instance Field_eq_dec : EqDecision Field.
Proof. solve_decision. Defined.

(** [explore.intrinsicFields]: the fields of the explore, in declaration
    order, each with its back-reference to the explore. *)
Definition intrinsicFields (explore : Explore) : list Field :=
  (λ d, {| name := def_name d; kind := def_kind d; parentExplore := explore |})
    <$> fieldDefs explore.

Definition isAtomicField (field : Field) : bool :=
  match kind field with
  | AtomicField _ => true
  | _ => false
  end.

Definition hasType (t : AtomicFieldType) (field : Field) : bool :=
  bool_decide (kind field = AtomicField t).

Definition isString : Field → bool := hasType StringType.
Definition isNumber : Field → bool := hasType NumberType.
Definition isDate : Field → bool := hasType DateType.
Definition isTimestamp : Field → bool := hasType TimestampType.

(** [field === other], where [other] may be [undefined]. *)
Definition strict_eq (field : Field) (other : option Field) : bool :=
  bool_decide (Some field = other).

(** ** The data of a result *)

(** The raw value of one cell. A nested record or array carries its own
    schema and rows; this renderer never looks inside them. *)
Inductive QueryValue : Type :=
| QNumber (n : Z)
| QString (s : string)
| QBoolean (b : bool)
| QDate (t : Z)
| QTimestamp (t : Z)
| QNull
| QRecord (schema : Explore) (row : string → QueryValue)
| QArray (schema : Explore) (rows : list (string → QueryValue)).

(** One result row: the raw value under each field name. *)
Definition QueryDataRow : Type := string → QueryValue.

(** [DataColumn]: a value together with the field it belongs to; the
    constructor is what the capability predicates [isNumber()],
    [isString()], [isNull()], [isArray()], ... test. *)
Inductive DataColumn : Type :=
| DataNumber (field : Field) (value : Z)
| DataString (field : Field) (value : string)
| DataBoolean (field : Field) (value : bool)
| DataDate (field : Field) (value : Z)
| DataTimestamp (field : Field) (value : Z)
| DataNull (field : Field)
| DataRecord (field : Explore) (row : QueryDataRow)
| DataArray (field : Explore) (rows : list QueryDataRow).

Definition isNull (data : DataColumn) : bool :=
  match data with
  | DataNull _ => true
  | _ => false
  end.

Definition isArray (data : DataColumn) : bool :=
  match data with
  | DataArray _ _ => true
  | _ => false
  end.

(** Modelled from the spec: [row.cell(field)] of the result abstraction
    (package @malloydata/malloy, not part of the renderer's source). Section 3
    of the specification: every data cell is a polymorphic value with the
    capability predicates and a back-reference to its originating field. *)
Definition cell (row : QueryDataRow) (field : Field) : DataColumn :=
  match row (name field) with
  | QNumber n => DataNumber field n
  | QString s => DataString field s
  | QBoolean b => DataBoolean field b
  | QDate t => DataDate field t
  | QTimestamp t => DataTimestamp field t
  | QNull => DataNull field
  | QRecord schema r => DataRecord schema r
  | QArray schema rs => DataArray schema rs
  end.

(** ** What the renderer imports and inherits

    [COUNTRY_CODES] (./country_codes), [world] (world-atlas),
    [formatTitle] and [getColorScale] (./utils), and the [options] and
    [getSize()] of the chart renderer it extends. None of them is part of
    the renderer's source; they are parameters of the model. The table is
    an ordinary object, given by the finite map of its own entries, and
    [COUNTRY_CODES[s]] is the property read [propertyOf COUNTRY_CODES s];
    [getSize()] is the object it returns; [formatTitle] and [getColorScale]
    are total functions. *)

Inductive EncodingType : Type :=
| ordinal
| quantitative
| nominal.

Class Imports : Type := {
  Options : Type;
  options : Options;
  formatTitle : Options → string → string;
  getColorScale : option EncodingType → bool → Json;
  getSize : gmap string Json;
  COUNTRY_CODES : gmap string Z;
  world : Json
}.

Definition encodingName (t : EncodingType) : string :=
  match t with
  | ordinal => "ordinal"
  | quantitative => "quantitative"
  | nominal => "nominal"
  end.

(** An optional encoding type as a property value. *)
Definition typeValue (t : option EncodingType) : Json :=
  match t with
  | Some t => JString (encodingName t)
  | None => JUndefined
  end.

(** [field.name] where [field] may be [undefined]. *)
Definition nameOf (field : option Field) : Result string :=
  match field with
  | Some f => Ok (name f)
  | None => Throw (TypeError "name")
  end.

Definition invalidFieldType : Exception :=
  Error "Invalid field type for shape map.".

(** ** HTMLCountryRenderer *)

Section HTMLCountryRenderer.
Context `{Imports}.

Definition getRegionField (explore : Explore) : option Field :=
  intrinsicFields explore !! 0%nat.

Definition getColorField (explore : Explore) : option Field :=
  intrinsicFields explore !! 1%nat.

Definition getDataValue (data : DataColumn) : Result Json :=
  match data with
  | DataNumber _ value => Ok (JNumber value)
  | DataString field value =>
      if strict_eq field (getRegionField (parentExplore field)) then
        let id := propertyOf COUNTRY_CODES value in
        if isUndefined id then Ok JUndefined
        else Ok id
      else Ok (JString value)
  | DataNull _ => Ok JUndefined
  | _ => Throw invalidFieldType
  end.

Definition getDataType (field : Field) : Result EncodingType :=
  if isAtomicField field then
    if isDate field || isTimestamp field then Ok nominal
    else if isString field then
      if strict_eq field (getRegionField (parentExplore field)) then Ok quantitative
      else Ok nominal
    else if isNumber field then Ok quantitative
    else Throw invalidFieldType
  else Throw invalidFieldType.

(** Modelled from the spec: the row mapper [mapData] the renderer inherits
    from the chart renderer (./chart, not among the sources). Section 4.4 of
    the specification: for each source row, for each field, the value of the
    cell given by [getDataValue] is stored under the field's name in a flat
    record; a failure of [getDataValue] aborts the mapping. *)
Fixpoint mapFields (row : QueryDataRow) (fields : list Field)
    (mappedRow : gmap string Json) : Result (gmap string Json) :=
  match fields with
  | [] => Ok mappedRow
  | field :: rest =>
      v ← getDataValue (cell row field);
      mapFields row rest (<[name field := v]> mappedRow)
  end.

Fixpoint mapRows (fields : list Field) (rows : list QueryDataRow)
    : Result (list (gmap string Json)) :=
  match rows with
  | [] => Ok []
  | row :: rest =>
      mappedRow ← mapFields row fields ∅;
      mappedRows ← mapRows fields rest;
      Ok (mappedRow :: mappedRows)
  end.

Definition mapData (field : Explore) (rows : list QueryDataRow)
    : Result (list (gmap string Json)) :=
  mapRows (intrinsicFields field) rows.

(** The three layers of the specification. *)
Definition sphereLayer : Json :=
  object [
    ("data", object [("sphere", JBool true)]);
    ("mark", object [("type", JString "geoshape"); ("fill", JString "aliceblue")])
  ].

Definition baseMapLayer : Json :=
  object [
    ("data", object [
       ("values", world);
       ("format", object [("type", JString "topojson"); ("feature", JString "countries")])
     ]);
    ("mark", object [
       ("type", JString "geoshape");
       ("fill", JString "mintcream");
       ("stroke", JString "black")
     ])
  ].

Definition dataLayer (regionName : string) (colorDef : Json) : Json :=
  object [
    ("transform", JArray [
       object [
         ("lookup", JString regionName);
         ("from", object [
            ("data", object [
               ("values", world);
               ("format", object [("type", JString "topojson"); ("feature", JString "countries")])
             ]);
            ("key", JString "id")
          ]);
         ("as", JString "geo")
       ]
     ]);
    ("mark", JString "geoshape");
    ("encoding", object [
       ("shape", object [("field", JString "geo"); ("type", JString "geojson")]);
       ("color", colorDef)
     ])
  ].

Definition getVegaLiteSpec (data : DataColumn) : Result Json :=
  if isNull data then Throw (Error "Expected struct value not to be null.")
  else
    match data with
    | DataArray field rows =>
        let regionField := getRegionField field in
        let colorField := getColorField field in
        colorType ←
          match colorField with
          | Some f => t ← getDataType f; Ok (Some t)
          | None => Ok None
          end;
        colorName ← nameOf colorField;
        let colorDef :=
          object [
            ("field", JString colorName);
            ("type", typeValue colorType);
            ("axis", object [("title", JString (formatTitle options colorName))]);
            ("scale", getColorScale colorType false)
          ] in
        mappedRows ← mapData field rows;
        regionName ← nameOf regionField;
        let mapped :=
          filter (λ row, ¬ isUndefined (get row regionName)) mappedRows in
        Ok (JObject (assign getSize [
          ("data", object [("values", JArray (JObject <$> mapped))]);
          ("projection", object [("type", JString "mercator")]);
          ("layer", JArray [sphereLayer; baseMapLayer; dataLayer regionName colorDef])
        ]))
    | _ => Throw (Error "Invalid data for shape map")
    end.

End HTMLCountryRenderer.

(** ** The vocabulary of the specification *)

(** The failure taxonomy of the specification (section 7) and the thrown
    errors that belong to each class; the runtime [TypeError] belongs to
    none. *)
Inductive Failure : Type :=
| InvalidFieldType
| InvalidInputShape.

Definition failureOf (e : Exception) : option Failure :=
  match e with
  | Error message =>
      if decide (message = "Invalid field type for shape map.") then Some InvalidFieldType
      else if decide (message = "Expected struct value not to be null.") then Some InvalidInputShape
      else if decide (message = "Invalid data for shape map") then Some InvalidInputShape
      else None
  | TypeError _ => None
  end.

(** The kind of a cell, as the capability predicates tell it. *)
Inductive CellKind : Type :=
| NumberCell
| StringCell
| BooleanCell
| DateCell
| TimestampCell
| NullCell
| RecordCell
| ArrayCell.

#[global] Instance CellKind_eq_dec : EqDecision CellKind.
Proof. solve_decision. Defined.

Definition cellKind (data : DataColumn) : CellKind :=
  match data with
  | DataNumber _ _ => NumberCell
  | DataString _ _ => StringCell
  | DataBoolean _ _ => BooleanCell
  | DataDate _ _ => DateCell
  | DataTimestamp _ _ => TimestampCell
  | DataNull _ => NullCell
  | DataRecord _ _ => RecordCell
  | DataArray _ _ => ArrayCell
  end.

(** The kinds section 7 of the specification lists as scalar. *)
Definition scalarKinds : list CellKind :=
  [NumberCell; StringCell; DateCell; TimestampCell; NullCell].

(** The field kinds the type classifier has a rule for. *)
Definition classifiable (k : FieldKind) : bool :=
  match k with
  | AtomicField StringType | AtomicField NumberType
  | AtomicField DateType | AtomicField TimestampType => true
  | _ => false
  end.

(** The raw values the row mapper has a rule for. *)
Definition mappable (v : QueryValue) : bool :=
  match v with
  | QNumber _ | QString _ | QNull => true
  | _ => false
  end.

(** A valid input of the transform: an array of rows over at least two
    fields, the second of a classifiable kind, every cell of a declared field
    a number, a string or null. *)
Definition validInput (data : DataColumn) : bool :=
  match data with
  | DataArray field rows =>
      match fieldDefs field with
      | _ :: color :: _ =>
          classifiable (def_kind color)
          && forallb (λ row : QueryDataRow,
               forallb (λ f, mappable (row (name f))) (intrinsicFields field)) rows
      | _ => false
      end
  | _ => false
  end.

(** Field names are unique inside an explore. *)
Definition uniqueNames (explore : Explore) : Prop :=
  NoDup (def_name <$> fieldDefs explore).

#[global] Instance uniqueNames_dec (explore : Explore) : Decision (uniqueNames explore).
Proof. unfold uniqueNames. apply _. Defined.

(** The role test of the classifier and of the value mapper. *)
Definition isRegionField (field : Field) : bool :=
  strict_eq field (getRegionField (parentExplore field)).

(** Type classification in the words of the specification (section 4.3). *)
Definition classify (k : FieldKind) (region : bool) : Result EncodingType :=
  match k with
  | AtomicField DateType | AtomicField TimestampType => Ok nominal
  | AtomicField StringType => if region then Ok quantitative else Ok nominal
  | AtomicField NumberType => Ok quantitative
  | _ => Throw invalidFieldType
  end.

(** The rows of the data block of a specification. *)
Definition dataValues (spec : Json) : Json :=
  member "values" (member "data" spec).

Section RegionOfRow.
Context `{Imports}.

(** The region cell of the row is a string the Country Code Table has no
    entry for. *)
Definition unresolvedRegion (regionField : Field) (row : QueryDataRow) : bool :=
  match row (name regionField) with
  | QString s => bool_decide (COUNTRY_CODES !! s = None)
  | _ => false
  end.

Definition nullRegion (regionField : Field) (row : QueryDataRow) : bool :=
  match row (name regionField) with
  | QNull => true
  | _ => false
  end.

(** The mapped region value of the row is not absent. *)
Definition regionPresent (regionField : Field) (row : QueryDataRow) : bool :=
  negb (unresolvedRegion regionField row || nullRegion regionField row).

(** The region cell of the row is a string the Country Code Table has no
    entry for and that names a member of [Object.prototype]. *)
Definition inheritedRegion (regionField : Field) (row : QueryDataRow) : bool :=
  match row (name regionField) with
  | QString s =>
      bool_decide (COUNTRY_CODES !! s = None) && bool_decide (is_Some (objectPrototype !! s))
  | _ => false
  end.

(** The row passes the filter of the renderer: its region cell is neither
    null nor a string the read of the table leaves undefined. *)
Definition regionKept (regionField : Field) (row : QueryDataRow) : bool :=
  match row (name regionField) with
  | QString s => negb (isUndefined (propertyOf COUNTRY_CODES s))
  | QNull => false
  | _ => true
  end.

(** The flat record of one row. *)
Definition mapRow (explore : Explore) (row : QueryDataRow) : Result (gmap string Json) :=
  mapFields row (intrinsicFields explore) ∅.

End RegionOfRow.

(** ** Sample data: the scenario of the specification

    A result with the fields [country] (string, the region) and [value]
    (number, the color), a Country Code Table knowing France and Japan, and
    the rows of the France / Atlantis / Japan scenario. *)

Definition sampleImports : Imports := {|
  Options := unit;
  options := tt;
  formatTitle := λ _ title, title;
  getColorScale := λ t _,
    match t with
    | Some _ => object [("range", JArray [JString "#C2D5EE"; JString "#1A73E8"])]
    | None => JUndefined
    end;
  getSize := assign ∅ [("width", JNumber 150); ("height", JNumber 100)];
  COUNTRY_CODES := <["France" := 250%Z]> (<["Japan" := 392%Z]> ∅);
  world := object [("type", JString "Topology")]
|}.

Definition countryValue : Explore := {|
  fieldDefs := [
    {| def_name := "country"; def_kind := AtomicField StringType |};
    {| def_name := "value"; def_kind := AtomicField NumberType |}
  ]
|}.

Definition countryField : Field :=
  {| name := "country"; kind := AtomicField StringType; parentExplore := countryValue |}.

Definition valueField : Field :=
  {| name := "value"; kind := AtomicField NumberType; parentExplore := countryValue |}.

Definition sampleRow (country value : QueryValue) : QueryDataRow :=
  λ k, if decide (k = "country") then country
       else if decide (k = "value") then value
       else QNull.

Definition scenarioRows : list QueryDataRow := [
  sampleRow (QString "France") (QNumber 10);
  sampleRow (QString "Atlantis") (QNumber 5);
  sampleRow (QString "Japan") QNull
].

(** A result with the region field only. *)
Definition countryOnly : Explore := {|
  fieldDefs := [ {| def_name := "country"; def_kind := AtomicField StringType |} ]
|}.


(** A row whose region string names a member of [Object.prototype]. *)
Definition constructorRows : list QueryDataRow := [
  sampleRow (QString "constructor") (QNumber 1)
].

(** The France row and a row whose region names an inherited member. *)
Definition mixedRows : list QueryDataRow := [
  sampleRow (QString "France") (QNumber 10);
  sampleRow (QString "toString") (QNumber 2)
].

(** A row whose region string the table does not know. *)
Definition atlantisRows : list QueryDataRow := [
  sampleRow (QString "Atlantis") (QNumber 5)
].

(** A row with a nested array where the measure should be. *)
Definition nestedRows : list QueryDataRow := [
  sampleRow (QString "France") (QArray countryValue [])
].

(** A result whose region field is numeric. *)
Definition codeValue : Explore := {|
  fieldDefs := [
    {| def_name := "code"; def_kind := AtomicField NumberType |};
    {| def_name := "value"; def_kind := AtomicField NumberType |}
  ]
|}.

Definition codeField : Field :=
  {| name := "code"; kind := AtomicField NumberType; parentExplore := codeValue |}.

Definition codeRow (code value : Z) : QueryDataRow :=
  λ k, if decide (k = "code") then QNumber code
       else if decide (k = "value") then QNumber value
       else QNull.

(** A result whose color field is a date, and a row with a date in it. *)
Definition countryDay : Explore := {|
  fieldDefs := [
    {| def_name := "country"; def_kind := AtomicField StringType |};
    {| def_name := "day"; def_kind := AtomicField DateType |}
  ]
|}.

Definition dayField : Field :=
  {| name := "day"; kind := AtomicField DateType; parentExplore := countryDay |}.

Definition dayRow (country day : QueryValue) : QueryDataRow :=
  λ k, if decide (k = "country") then country
       else if decide (k = "day") then day
       else QNull.

(** A result whose color field is a string. *)
Definition countryLabel : Explore := {|
  fieldDefs := [
    {| def_name := "country"; def_kind := AtomicField StringType |};
    {| def_name := "label"; def_kind := AtomicField StringType |}
  ]
|}.

Definition labelField : Field :=
  {| name := "label"; kind := AtomicField StringType; parentExplore := countryLabel |}.

Definition labelRow (country label : QueryValue) : QueryDataRow :=
  λ k, if decide (k = "country") then country
       else if decide (k = "label") then label
       else QNull.

Definition labelCountryField : Field :=
  {| name := "country"; kind := AtomicField StringType; parentExplore := countryLabel |}.

(** Rows none of which has a region the sample table resolves. *)
Definition lostRows : list QueryDataRow := [
  sampleRow (QString "Atlantis") (QNumber 5);
  sampleRow QNull (QNumber 1)
].

(** The sample imports with a table that knows Atlantis as well. *)
Definition extendedImports : Imports := {|
  Options := unit;
  options := tt;
  formatTitle := λ _ title, title;
  getColorScale := λ _ _, JUndefined;
  getSize := ∅;
  COUNTRY_CODES :=
    <["Atlantis" := 999%Z]> (<["France" := 250%Z]> (<["Japan" := 392%Z]> ∅));
  world := object [("type", JString "Topology")]
|}.

(** ** Basic facts: results, objects, fields *)

Lemma bind_Ok_inv {A B : Type} (r : Result A) (k : A → Result B) (b : B) :
  (r ≫= k) = Ok b → ∃ a, r = Ok a ∧ k a = Ok b.
Proof. destruct r as [a|e]; simpl; [eauto | discriminate]. Qed.

Lemma bind_Throw_inv {A B : Type} (r : Result A) (k : A → Result B) (e : Exception) :
  (r ≫= k) = Throw e → r = Throw e ∨ ∃ a, r = Ok a ∧ k a = Throw e.
Proof. destruct r as [a|e']; simpl; [eauto | intros [= ->]; by left]. Qed.

(** Reads a property of an object built by successive assignments. *)
Ltac read_property :=
  unfold member, get;
  repeat (rewrite lookup_insert_ne by done);
  rewrite lookup_insert_eq; simpl.

Lemma names_intrinsicFields (e : Explore) :
  name <$> intrinsicFields e = def_name <$> fieldDefs e.
Proof.
  unfold intrinsicFields. rewrite <- list_fmap_compose.
  apply list_fmap_ext. by intros i d _.
Qed.

Lemma parent_intrinsicFields (e : Explore) (f : Field) :
  f ∈ intrinsicFields e → parentExplore f = e.
Proof.
  unfold intrinsicFields. intros Hf.
  apply list_elem_of_fmap in Hf as [d [-> _]]. reflexivity.
Qed.

Lemma getRegionField_elem (e : Explore) (f : Field) :
  getRegionField e = Some f → f ∈ intrinsicFields e.
Proof. unfold getRegionField. intros Hf. eapply list_elem_of_lookup_2, Hf. Qed.

Lemma getColorField_elem (e : Explore) (f : Field) :
  getColorField e = Some f → f ∈ intrinsicFields e.
Proof. unfold getColorField. intros Hf. eapply list_elem_of_lookup_2, Hf. Qed.

Lemma isRegionField_region (e : Explore) (f : Field) :
  getRegionField e = Some f → isRegionField f = true.
Proof.
  intros Hf. unfold isRegionField, strict_eq.
  rewrite (parent_intrinsicFields e f) by by apply getRegionField_elem.
  rewrite Hf. by apply bool_decide_eq_true.
Qed.

Lemma fields_of_two (e : Explore) :
  (2 ≤ length (fieldDefs e))%nat →
  ∃ rf cf, getRegionField e = Some rf ∧ getColorField e = Some cf.
Proof.
  unfold getRegionField, getColorField, intrinsicFields.
  destruct (fieldDefs e) as [|r [|c rest]]; simpl; try lia.
  intros _. eauto.
Qed.

Lemma fields_short (e : Explore) :
  (length (fieldDefs e) < 2)%nat → getColorField e = None.
Proof.
  unfold getColorField, intrinsicFields.
  destruct (fieldDefs e) as [|r [|c rest]]; simpl; try lia; reflexivity.
Qed.

(** ** The value mapper and the row mapper *)

Section Mapping.
Context `{Imports}.

Lemma getDataValue_Throw (data : DataColumn) (e : Exception) :
  getDataValue data = Throw e → e = invalidFieldType.
Proof.
  destruct data; simpl; try congruence.
  destruct (strict_eq _ _); [destruct (isUndefined _)|]; congruence.
Qed.

Lemma getDataValue_mappable (row : QueryDataRow) (f : Field) :
  mappable (row (name f)) = true → ∃ v, getDataValue (cell row f) = Ok v.
Proof.
  unfold cell. destruct (row (name f)); simpl; try discriminate; eauto.
  intros _. destruct (strict_eq _ _); [destruct (isUndefined _)|]; eauto.
Qed.

Lemma getDataValue_unmappable (row : QueryDataRow) (f : Field) :
  mappable (row (name f)) = false → getDataValue (cell row f) = Throw invalidFieldType.
Proof. unfold cell. destruct (row (name f)); simpl; congruence. Qed.

Lemma getDataValue_region (e : Explore) (rf : Field) (row : QueryDataRow) (v : Json) :
  getRegionField e = Some rf →
  getDataValue (cell row rf) = Ok v →
  match row (name rf) with
  | QNumber n => v = JNumber n
  | QString s => v = propertyOf COUNTRY_CODES s
  | QNull => v = JUndefined
  | _ => False
  end.
Proof.
  intros Hrf. apply isRegionField_region in Hrf. unfold isRegionField in Hrf.
  unfold cell. destruct (row (name rf)); simpl; try congruence.
  rewrite Hrf. destruct (propertyOf COUNTRY_CODES s); simpl; congruence.
Qed.

Lemma mapFields_Throw (row : QueryDataRow) (fields : list Field)
    (acc : gmap string Json) (e : Exception) :
  mapFields row fields acc = Throw e → e = invalidFieldType.
Proof.
  revert acc. induction fields as [|f fields IH]; intros acc; simpl; [discriminate|].
  intros Hm. apply bind_Throw_inv in Hm as [Hv | (v & _ & Hrest)].
  - by apply getDataValue_Throw in Hv.
  - by eapply IH.
Qed.

Lemma mapFields_total (row : QueryDataRow) (fields : list Field) (acc : gmap string Json) :
  Forall (λ f, mappable (row (name f)) = true) fields →
  ∃ m, mapFields row fields acc = Ok m.
Proof.
  intros Hall. revert acc.
  induction Hall as [|f fields Hf _ IH]; intros acc; simpl; [eauto|].
  destruct (getDataValue_mappable row f Hf) as [v ->]. simpl. apply IH.
Qed.

Lemma mapFields_unmappable (row : QueryDataRow) (fields : list Field)
    (acc : gmap string Json) (f : Field) :
  f ∈ fields → mappable (row (name f)) = false →
  mapFields row fields acc = Throw invalidFieldType.
Proof.
  intros Hin Hbad. revert acc.
  induction fields as [|g fields IH]; intros acc; [by apply elem_of_nil in Hin|].
  simpl. destruct (getDataValue (cell row g)) as [v|e] eqn:Hg; simpl.
  - apply elem_of_cons in Hin as [->|Hin].
    + rewrite getDataValue_unmappable in Hg by done. discriminate.
    + by apply IH.
  - by apply getDataValue_Throw in Hg as ->.
Qed.

Lemma mapFields_lookup_notin (row : QueryDataRow) (fields : list Field)
    (acc m : gmap string Json) (k : string) :
  k ∉ name <$> fields → mapFields row fields acc = Ok m → m !! k = acc !! k.
Proof.
  revert acc. induction fields as [|f fields IH]; intros acc; simpl.
  - intros _ [= ->]. reflexivity.
  - intros Hk Hm. apply not_elem_of_cons in Hk as [Hne Hk].
    apply bind_Ok_inv in Hm as (v & _ & Hm).
    rewrite (IH _ Hk Hm). by apply lookup_insert_ne.
Qed.

Lemma mapFields_lookup (row : QueryDataRow) (fields : list Field)
    (acc m : gmap string Json) (f : Field) :
  NoDup (name <$> fields) → f ∈ fields → mapFields row fields acc = Ok m →
  ∃ v, getDataValue (cell row f) = Ok v ∧ m !! name f = Some v.
Proof.
  revert acc. induction fields as [|g fields IH]; intros acc; simpl.
  - intros _ Hin. by apply elem_of_nil in Hin.
  - intros Hnd Hin Hm. apply NoDup_cons in Hnd as [Hg Hnd].
    apply bind_Ok_inv in Hm as (v & Hv & Hm).
    apply elem_of_cons in Hin as [->|Hin].
    + exists v. split; [done|].
      rewrite (mapFields_lookup_notin _ _ _ _ _ Hg Hm). apply lookup_insert_eq.
    + by eapply IH.
Qed.

Lemma mapRows_Throw (fields : list Field) (rows : list QueryDataRow) (e : Exception) :
  mapRows fields rows = Throw e → e = invalidFieldType.
Proof.
  induction rows as [|row rows IH]; simpl; [discriminate|].
  intros Hm. apply bind_Throw_inv in Hm as [Hrow | (m & _ & Hrest)].
  - by apply mapFields_Throw in Hrow.
  - apply bind_Throw_inv in Hrest as [Hrest | (ms & _ & Hrest)]; [by apply IH|].
    discriminate.
Qed.

Lemma mapRows_total (fields : list Field) (rows : list QueryDataRow) :
  Forall (λ row : QueryDataRow, Forall (λ f, mappable (row (name f)) = true) fields) rows →
  ∃ ms, mapRows fields rows = Ok ms.
Proof.
  induction 1 as [|row rows Hrow _ [ms IH]]; simpl; [eauto|].
  destruct (mapFields_total row fields ∅ Hrow) as [m ->]. simpl.
  rewrite IH. simpl. eauto.
Qed.

Lemma mapRows_unmappable (fields : list Field) (rows : list QueryDataRow)
    (row : QueryDataRow) (f : Field) :
  row ∈ rows → f ∈ fields → mappable (row (name f)) = false →
  mapRows fields rows = Throw invalidFieldType.
Proof.
  intros Hrow Hf Hbad.
  induction rows as [|r rows IH]; [by apply elem_of_nil in Hrow|].
  simpl. destruct (mapFields r fields ∅) as [m|e] eqn:Hr; simpl.
  - apply elem_of_cons in Hrow as [->|Hrow].
    + rewrite (mapFields_unmappable _ _ _ f) in Hr by done. discriminate.
    + by rewrite IH.
  - by apply mapFields_Throw in Hr as ->.
Qed.

Lemma mapRows_Forall2 (fields : list Field) (rows : list QueryDataRow)
    (ms : list (gmap string Json)) :
  mapRows fields rows = Ok ms →
  Forall2 (λ row m, mapFields row fields ∅ = Ok m) rows ms.
Proof.
  revert ms. induction rows as [|row rows IH]; intros ms; simpl.
  - intros [= <-]. constructor.
  - intros Hm. apply bind_Ok_inv in Hm as (m & Hrow & Hm).
    apply bind_Ok_inv in Hm as (ms' & Hrows & [= <-]).
    constructor; [done | by apply IH].
Qed.

Lemma region_value (e : Explore) (rf : Field) (row : QueryDataRow) (m : gmap string Json) :
  uniqueNames e → getRegionField e = Some rf → mapRow e row = Ok m →
  isUndefined (get m (name rf)) = negb (regionKept rf row).
Proof.
  intros Hnd Hrf Hm. unfold uniqueNames in Hnd. rewrite <- names_intrinsicFields in Hnd.
  destruct (mapFields_lookup _ _ _ _ rf Hnd (getRegionField_elem _ _ Hrf) Hm)
    as (v & Hv & Hlook).
  unfold get. rewrite Hlook. simpl.
  pose proof (getDataValue_region e rf row v Hrf Hv) as Hcase.
  unfold regionKept.
  destruct (row (name rf)); simpl; try done; subst v; try done.
  by rewrite negb_involutive.
Qed.

End Mapping.

(** ** The type classifier and the assembly *)

Section Assembly.
Context `{Imports}.

Lemma getDataType_Throw (f : Field) (e : Exception) :
  getDataType f = Throw e → e = invalidFieldType.
Proof.
  unfold getDataType.
  repeat (match goal with |- context [if ?b then _ else _] => destruct b end);
    congruence.
Qed.

Lemma getDataType_classifiable (f : Field) :
  classifiable (kind f) = true → ∃ t, getDataType f = Ok t.
Proof.
  unfold getDataType, isAtomicField, isDate, isTimestamp, isString, isNumber, hasType.
  destruct (kind f) as [[]| |]; simpl; try discriminate; intros _;
    try destruct (strict_eq _ _); eauto.
Qed.

Lemma getDataType_unclassifiable (f : Field) :
  classifiable (kind f) = false → getDataType f = Throw invalidFieldType.
Proof.
  unfold getDataType, isAtomicField, isDate, isTimestamp, isString, isNumber, hasType.
  destruct (kind f) as [[]| |]; simpl; try discriminate; reflexivity.
Qed.

Lemma member_values (rows : Json) :
  member "values" (object [("values", rows)]) = rows.
Proof. unfold object, member, get, assign. simpl. by rewrite lookup_insert_eq. Qed.

(** What a successful call has computed. *)
Lemma getVegaLiteSpec_Ok_inv (e : Explore) (rows : list QueryDataRow) (spec : Json) :
  getVegaLiteSpec (DataArray e rows) = Ok spec →
  ∃ rf cf t ms,
    getRegionField e = Some rf ∧ getColorField e = Some cf
    ∧ getDataType cf = Ok t ∧ mapData e rows = Ok ms
    ∧ dataValues spec =
        JArray (JObject <$> filter (λ row, ¬ isUndefined (get row (name rf))) ms)
    ∧ member "projection" spec = object [("type", JString "mercator")]
    ∧ ∃ colorDef,
        member "layer" spec = JArray [sphereLayer; baseMapLayer; dataLayer (name rf) colorDef].
Proof.
  unfold getVegaLiteSpec. cbn [isNull]. intros Hspec.
  apply bind_Ok_inv in Hspec as (ct & Hct & Hspec).
  apply bind_Ok_inv in Hspec as (cn & Hcn & Hspec).
  apply bind_Ok_inv in Hspec as (ms & Hms & Hspec).
  apply bind_Ok_inv in Hspec as (rn & Hrn & [= <-]).
  destruct (getColorField e) as [cf|]; [|discriminate].
  destruct (getRegionField e) as [rf|]; [|discriminate].
  apply bind_Ok_inv in Hct as (t & Ht & [= <-]).
  injection Hcn as <-. injection Hrn as <-.
  exists rf, cf, t, ms. repeat split; try done.
  - unfold dataValues. read_property. apply member_values.
  - by read_property.
  - eexists. by read_property.
Qed.

(** The third layer of a rendered specification. *)
Lemma getVegaLiteSpec_dataLayer (e : Explore) (rows : list QueryDataRow) (spec : Json)
    (rf cf : Field) (t : EncodingType) :
  getVegaLiteSpec (DataArray e rows) = Ok spec →
  getRegionField e = Some rf → getColorField e = Some cf → getDataType cf = Ok t →
  member "layer" spec
  = JArray [sphereLayer; baseMapLayer;
            dataLayer (name rf) (object [
              ("field", JString (name cf));
              ("type", JString (encodingName t));
              ("axis", object [("title", JString (formatTitle options (name cf)))]);
              ("scale", getColorScale (Some t) false)
            ])].
Proof.
  intros Hspec Hrf Hcf Ht. unfold getVegaLiteSpec in Hspec. cbn [isNull] in Hspec.
  rewrite Hrf, Hcf, Ht in Hspec.
  apply bind_Ok_inv in Hspec as (ct & [= <-] & Hspec).
  apply bind_Ok_inv in Hspec as (cn & [= <-] & Hspec).
  apply bind_Ok_inv in Hspec as (ms & _ & Hspec).
  apply bind_Ok_inv in Hspec as (rn & [= <-] & [= <-]).
  by read_property.
Qed.

(** A valid input is rendered. *)
Lemma getVegaLiteSpec_valid (data : DataColumn) :
  validInput data = true → ∃ spec, getVegaLiteSpec data = Ok spec.
Proof.
  destruct data as [| | | | | | |e rows]; try discriminate.
  unfold validInput, getVegaLiteSpec, getRegionField, getColorField, mapData. simpl.
  unfold intrinsicFields.
  destruct (fieldDefs e) as [|r [|c rest]] eqn:Hdefs; try discriminate.
  intros [Hkind Hcells]%andb_true_iff. simpl.
  edestruct (getDataType_classifiable
    {| name := def_name c; kind := def_kind c; parentExplore := e |}) as [t ->]; [done|].
  simpl.
  edestruct (mapRows_total) as [ms ->]; [|simpl; eauto].
  apply Forall_forall. intros row Hrow.
  rewrite forallb_forall in Hcells. specialize (Hcells row).
  rewrite <- list_elem_of_In in Hcells. specialize (Hcells Hrow).
  apply Forall_forall. intros f Hf.
  rewrite forallb_forall in Hcells. apply Hcells. by apply list_elem_of_In.
Qed.

(** With two fields or more, the only failure of an array input is the
    invalid field type. *)
Lemma getVegaLiteSpec_Throw_array (e : Explore) (rows : list QueryDataRow) (ex : Exception) :
  (2 ≤ length (fieldDefs e))%nat →
  getVegaLiteSpec (DataArray e rows) = Throw ex → ex = invalidFieldType.
Proof.
  intros (rf & cf & Hrf & Hcf)%fields_of_two.
  unfold getVegaLiteSpec. simpl. rewrite Hrf, Hcf. simpl.
  intros Hthrow.
  apply bind_Throw_inv in Hthrow as [Ht | (ct & Ht & Hthrow)].
  - apply bind_Throw_inv in Ht as [Ht | (t & _ & Ht)]; [|discriminate].
    by apply getDataType_Throw in Ht.
  - apply bind_Throw_inv in Hthrow as [Hms | (ms & _ & Hthrow)]; [|discriminate].
    by apply mapRows_Throw in Hms.
Qed.

(** The surviving rows of a successful call, in the order of the input. *)
Lemma getVegaLiteSpec_values (e : Explore) (rows : list QueryDataRow) (spec : Json) :
  uniqueNames e →
  getVegaLiteSpec (DataArray e rows) = Ok spec →
  ∃ rf mapped,
    getRegionField e = Some rf
    ∧ dataValues spec = JArray (JObject <$> mapped)
    ∧ Forall2 (λ row m, mapRow e row = Ok m)
        (filter (λ row, regionKept rf row) rows) mapped.
Proof.
  intros Hnd (rf & cf & t & ms & Hrf & _ & _ & Hms & Hvalues & _)%getVegaLiteSpec_Ok_inv.
  exists rf, (filter (λ row, ¬ isUndefined (get row (name rf))) ms).
  repeat split; try done.
  eapply Forall2_filter; [|by apply mapRows_Forall2].
  intros row m Hm. rewrite (region_value e rf row m Hnd Hrf Hm).
  destruct (regionKept rf row); simpl; tauto.
Qed.

End Assembly.

(** ** Surviving and dropped rows *)

Section Survivors.
Context `{Imports}.


Lemma null_not_present (rf : Field) (row : QueryDataRow) :
  nullRegion rf row → ¬ regionPresent rf row.
Proof.
  unfold regionPresent.
  destruct (unresolvedRegion rf row), (nullRegion rf row); simpl; tauto.
Qed.


Lemma objectPrototype_defined (s : string) (v : Json) :
  objectPrototype !! s = Some v → isUndefined v = false.
Proof.
  revert s v. change (map_Forall (λ _ v, isUndefined v = false) objectPrototype).
  unfold objectPrototype, assign. simpl.
  repeat (apply map_Forall_insert_2; [reflexivity|]).
  apply map_Forall_empty.
Qed.

(** The filter keeps the rows with an own entry or a number, and the rows
    whose region string names an inherited member. *)
Lemma regionKept_cases (rf : Field) (row : QueryDataRow) :
  regionKept rf row = regionPresent rf row || inheritedRegion rf row.
Proof.
  unfold regionKept, regionPresent, unresolvedRegion, nullRegion, inheritedRegion,
    propertyOf.
  destruct (row (name rf)); try reflexivity.
  destruct (COUNTRY_CODES !! s) as [id|]; [reflexivity|].
  destruct (objectPrototype !! s) as [v|] eqn:Hproto; simpl.
  - rewrite (objectPrototype_defined s v Hproto). reflexivity.
  - reflexivity.
Qed.

Lemma regionPresent_kept (rf : Field) (row : QueryDataRow) :
  regionPresent rf row = true → regionKept rf row = true.
Proof. intros Hp. by rewrite regionKept_cases, Hp. Qed.


(** A row whose region value is present has its record among the rows of
    the data block. *)
Lemma present_row_survives (e : Explore) (rows : list QueryDataRow) (spec : Json)
    (rf : Field) (row : QueryDataRow) :
  uniqueNames e →
  getVegaLiteSpec (DataArray e rows) = Ok spec →
  getRegionField e = Some rf →
  row ∈ rows → regionPresent rf row = true →
  ∃ mapped m,
    dataValues spec = JArray (JObject <$> mapped)
    ∧ m ∈ mapped ∧ mapRow e row = Ok m.
Proof.
  intros Hnd Hspec Hrf Hrow Hpresent%regionPresent_kept.
  destruct (getVegaLiteSpec_values e rows spec Hnd Hspec)
    as (rf' & mapped & Hrf' & Hvalues & Hall).
  assert (rf' = rf) as -> by congruence.
  assert (Hin : row ∈ filter (λ row, regionKept rf row) rows).
  { apply list_elem_of_filter. split; [by rewrite Hpresent | done]. }
  apply list_elem_of_lookup in Hin as [i Hi].
  destruct (Forall2_lookup_l _ _ _ _ _ Hall Hi) as (m & Hm & Hmap).
  exists mapped, m. repeat split; try done.
  eapply list_elem_of_lookup_2, Hm.
Qed.

End Survivors.

(** ** The properties of the specification *)

Section Properties.
Context `{Imports}.


(** C2. On every valid input, a row whose region cell is a string with an
    entry in the Country Code Table has its record among the rows of the data
    block, and in that record the region field holds the numeric identifier
    of the table, not the string. *)
Theorem known_region_is_replaced (e : Explore) (rows : list QueryDataRow)
    (rf : Field) (row : QueryDataRow) (s : string) (id : Z) :
  uniqueNames e →
  validInput (DataArray e rows) = true →
  getRegionField e = Some rf →
  row ∈ rows →
  row (name rf) = QString s →
  COUNTRY_CODES !! s = Some id →
  ∃ spec mapped m,
    getVegaLiteSpec (DataArray e rows) = Ok spec
    ∧ dataValues spec = JArray (JObject <$> mapped)
    ∧ m ∈ mapped
    ∧ mapRow e row = Ok m
    ∧ m !! name rf = Some (JNumber id).
Proof.
  intros Hnd Hvalid Hrf Hrow Hcell Hid.
  destruct (getVegaLiteSpec_valid _ Hvalid) as [spec Hspec].
  destruct (present_row_survives e rows spec rf row Hnd Hspec Hrf Hrow)
    as (mapped & m & Hvalues & Hm & Hmap).
  { unfold regionPresent, unresolvedRegion, nullRegion. rewrite Hcell, Hid.
    reflexivity. }
  exists spec, mapped, m. repeat split; try done.
  unfold uniqueNames in Hnd. rewrite <- names_intrinsicFields in Hnd.
  destruct (mapFields_lookup _ _ _ _ rf Hnd (getRegionField_elem _ _ Hrf) Hmap)
    as (v & Hv & ->).
  pose proof (getDataValue_region e rf row v Hrf Hv) as Hcase.
  rewrite Hcell in Hcase. unfold propertyOf in Hcase. rewrite Hid in Hcase.
  by subst v.
Qed.

(** C3. The encoding type of a field is a function of its declared kind and
    of its role alone, the one section 4.3 of the specification gives: date
    and timestamp are nominal, a string is quantitative when the field is the
    region field and nominal otherwise, a number is quantitative. *)
Theorem getDataType_kind_and_role (field : Field) :
  getDataType field = classify (kind field) (isRegionField field).
Proof.
  unfold getDataType, classify, isRegionField.
  unfold isAtomicField, isDate, isTimestamp, isString, isNumber, hasType.
  destruct (kind field) as [[]| |]; reflexivity.
Qed.

(** C4. Every valid input, whatever its rows, is rendered to a specification
    whose projection is mercator and whose layers are exactly three, in this
    order: the sphere with the aliceblue fill, the countries of the world
    dataset with the mintcream fill and black stroke, and the data layer
    that looks up the region field in the countries of the world dataset by
    id and colors the shapes by the color field with its classified type. *)
Theorem three_layers_mercator (e : Explore) (rows : list QueryDataRow) :
  validInput (DataArray e rows) = true →
  ∃ spec rf cf t,
    getVegaLiteSpec (DataArray e rows) = Ok spec
    ∧ getRegionField e = Some rf
    ∧ getColorField e = Some cf
    ∧ getDataType cf = Ok t
    ∧ member "projection" spec = object [("type", JString "mercator")]
    ∧ member "layer" spec
      = JArray [
        object [
          ("data", object [("sphere", JBool true)]);
          ("mark", object [("type", JString "geoshape"); ("fill", JString "aliceblue")])
        ];
        object [
          ("data", object [
             ("values", world);
             ("format", object [("type", JString "topojson"); ("feature", JString "countries")])
           ]);
          ("mark", object [
             ("type", JString "geoshape");
             ("fill", JString "mintcream");
             ("stroke", JString "black")
           ])
        ];
        object [
          ("transform", JArray [
             object [
               ("lookup", JString (name rf));
               ("from", object [
                  ("data", object [
                     ("values", world);
                     ("format",
                      object [("type", JString "topojson"); ("feature", JString "countries")])
                   ]);
                  ("key", JString "id")
                ]);
               ("as", JString "geo")
             ]
           ]);
          ("mark", JString "geoshape");
          ("encoding", object [
             ("shape", object [("field", JString "geo"); ("type", JString "geojson")]);
             ("color", object [
                ("field", JString (name cf));
                ("type", JString (encodingName t));
                ("axis", object [("title", JString (formatTitle options (name cf)))]);
                ("scale", getColorScale (Some t) false)
              ])
           ])
        ]
      ].
Proof.
  intros Hvalid.
  destruct (getVegaLiteSpec_valid _ Hvalid) as [spec Hspec].
  destruct (getVegaLiteSpec_Ok_inv e rows spec Hspec)
    as (rf & cf & t & ms & Hrf & Hcf & Ht & _ & _ & Hproj & _).
  exists spec, rf, cf, t. repeat split; try done.
  apply (getVegaLiteSpec_dataLayer e rows spec rf cf t Hspec Hrf Hcf Ht).
Qed.

(** C5. A cell whose kind is not number, string, date, timestamp or null
    makes [getDataValue] throw the invalid-field-type error, and a field
    whose kind is not string, number, date or timestamp makes [getDataType]
    throw it; on an array input with at least two fields either one aborts
    the whole call with that error. A string cell throws nothing; the value
    of a region string that neither has an entry in the Country Code Table
    nor names a member of [Object.prototype] is absent. *)
Theorem invalid_kind_raises :
  failureOf invalidFieldType = Some InvalidFieldType
  ∧ (∀ data, cellKind data ∉ scalarKinds →
       getDataValue data = Throw invalidFieldType)
  ∧ (∀ field, classifiable (kind field) = false →
       getDataType field = Throw invalidFieldType)
  ∧ (∀ e rows row f,
       (2 ≤ length (fieldDefs e))%nat →
       row ∈ rows → f ∈ intrinsicFields e →
       cellKind (cell row f) ∉ scalarKinds →
       getVegaLiteSpec (DataArray e rows) = Throw invalidFieldType)
  ∧ (∀ e rows cf,
       getColorField e = Some cf → classifiable (kind cf) = false →
       getVegaLiteSpec (DataArray e rows) = Throw invalidFieldType)
  ∧ (∀ field s, ∃ v, getDataValue (DataString field s) = Ok v)
  ∧ (∀ field s,
       COUNTRY_CODES !! s = None → objectPrototype !! s = None →
       getDataValue (DataString field s)
       = Ok (if isRegionField field then JUndefined else JString s)).
Proof.
  split; [reflexivity|]. split; [|split; [|split; [|split; [|split]]]].
  - intros data Hkind. destruct data; simpl; try reflexivity;
      exfalso; apply Hkind; compute_done.
  - apply getDataType_unclassifiable.
  - intros e rows row f Htwo Hrow Hf Hkind.
    assert (Hbad : mappable (row (name f)) = false).
    { unfold cell in Hkind. destruct (row (name f)); simpl in *; try reflexivity;
        exfalso; apply Hkind; compute_done. }
    destruct (getVegaLiteSpec (DataArray e rows)) as [spec|ex] eqn:Hspec.
    + apply getVegaLiteSpec_Ok_inv in Hspec
        as (rf & cf & t & ms & _ & _ & _ & Hms & _).
      unfold mapData in Hms.
      rewrite (mapRows_unmappable _ _ row f Hrow Hf Hbad) in Hms. discriminate.
    + by apply getVegaLiteSpec_Throw_array in Hspec as ->.
  - intros e rows cf Hcf Hkind. unfold getVegaLiteSpec. cbn [isNull].
    rewrite Hcf, (getDataType_unclassifiable cf Hkind). reflexivity.
  - intros field s. simpl.
    destruct (strict_eq _ _); [destruct (isUndefined _)|]; eauto.
  - intros field s Hs Hproto. simpl. unfold isRegionField, propertyOf.
    rewrite Hs, Hproto. by destruct (strict_eq _ _).
Qed.

(** C6. A null input, and an input that is not an array of rows, makes the
    call throw an error of the invalid-input-shape class, whatever else the
    input holds: no field is selected and no row is mapped. *)
Theorem invalid_input_shape (data : DataColumn) :
  isNull data = true ∨ isArray data = false →
  ∃ ex,
    getVegaLiteSpec data = Throw ex
    ∧ failureOf ex = Some InvalidInputShape
    ∧ ex = (if isNull data then Error "Expected struct value not to be null."
            else Error "Invalid data for shape map").
Proof.
  intros [Hnull | Harray]; destruct data; try discriminate;
    eexists; repeat split; reflexivity.
Qed.

(** C8. A null cell throws nothing and its value is absent in the record of
    its row; on a valid input a row whose region cell is a number or a string
    with an entry in the Country Code Table has its record among the rows of
    the data block, so a null outside the region field never drops a row; in
    the France / Atlantis / Japan scenario the
    data block holds the France row and the Japan row, the latter with an
    absent value. *)
Theorem null_cells_are_absent :
  (∀ field, getDataValue (DataNull field) = Ok JUndefined)
  ∧ (∀ e row m f,
       uniqueNames e → mapRow e row = Ok m →
       f ∈ intrinsicFields e → row (name f) = QNull →
       m !! name f = Some JUndefined)
  ∧ (∀ e rows rf row,
       uniqueNames e → validInput (DataArray e rows) = true →
       getRegionField e = Some rf → row ∈ rows →
       regionPresent rf row = true →
       ∃ spec mapped m,
         getVegaLiteSpec (DataArray e rows) = Ok spec
         ∧ dataValues spec = JArray (JObject <$> mapped)
         ∧ m ∈ mapped
         ∧ mapRow e row = Ok m)
  ∧ (COUNTRY_CODES !! "France" = Some 250%Z →
     COUNTRY_CODES !! "Japan" = Some 392%Z →
     COUNTRY_CODES !! "Atlantis" = None →
     dataValues <$> getVegaLiteSpec (DataArray countryValue scenarioRows)
     = Ok (JArray [
         object [("country", JNumber 250); ("value", JNumber 10)];
         object [("country", JNumber 392); ("value", JUndefined)]
       ])).
Proof.
  split; [reflexivity|]. split; [|split].
  - intros e row m f Hnd Hm Hf Hcell.
    unfold uniqueNames in Hnd. rewrite <- names_intrinsicFields in Hnd.
    destruct (mapFields_lookup _ _ _ _ f Hnd Hf Hm) as (v & Hv & ->).
    unfold cell in Hv. rewrite Hcell in Hv. simpl in Hv. congruence.
  - intros e rows rf row Hnd Hvalid Hrf Hrow Hpresent.
    destruct (getVegaLiteSpec_valid _ Hvalid) as [spec Hspec].
    destruct (present_row_survives e rows spec rf row Hnd Hspec Hrf Hrow Hpresent)
      as (mapped & m & Hvalues & Hm & Hmap).
    by exists spec, mapped, m.
  - intros HF HJ HA.
    assert (Hrows : mapData countryValue scenarioRows = Ok [
        assign ∅ [("country", JNumber 250); ("value", JNumber 10)];
        assign ∅ [("country", JUndefined); ("value", JNumber 5)];
        assign ∅ [("country", JNumber 392); ("value", JUndefined)] ]).
    { unfold mapData, scenarioRows, mapRows, mapFields, cell, getDataValue, propertyOf.
      simpl. rewrite HF, HJ, HA. reflexivity. }
    unfold getVegaLiteSpec. rewrite Hrows. simpl.
    unfold dataValues. read_property. vm_compute. reflexivity.
Qed.

(** C10. A number cell is passed through unchanged, and the Country Code
    Table plays no part in it; on a valid input a row whose region cell is a
    number is never dropped: its record is among the rows of the data block
    and holds that number under the region field. *)
Theorem numeric_region_passes_through :
  (∀ field n, getDataValue (DataNumber field n) = Ok (JNumber n))
  ∧ (∀ rf row n, row (name rf) = QNumber n → regionPresent rf row = true)
  ∧ (∀ e rows rf row n,
       uniqueNames e → validInput (DataArray e rows) = true →
       getRegionField e = Some rf → row ∈ rows →
       row (name rf) = QNumber n →
       ∃ spec mapped m,
         getVegaLiteSpec (DataArray e rows) = Ok spec
         ∧ dataValues spec = JArray (JObject <$> mapped)
         ∧ m ∈ mapped
         ∧ mapRow e row = Ok m
         ∧ m !! name rf = Some (JNumber n)).
Proof.
  split; [reflexivity|].
  assert (Hpresent : ∀ rf row n,
    row (name rf) = QNumber n → regionPresent rf row = true).
  { intros rf row n Hcell. unfold regionPresent, unresolvedRegion, nullRegion.
    by rewrite Hcell. }
  split; [done|].
  intros e rows rf row n Hnd Hvalid Hrf Hrow Hcell.
  destruct (getVegaLiteSpec_valid _ Hvalid) as [spec Hspec].
  destruct (present_row_survives e rows spec rf row Hnd Hspec Hrf Hrow)
    as (mapped & m & Hvalues & Hm & Hmap); [by eapply Hpresent|].
  exists spec, mapped, m. repeat split; try done.
  unfold uniqueNames in Hnd. rewrite <- names_intrinsicFields in Hnd.
  destruct (mapFields_lookup _ _ _ _ rf Hnd (getRegionField_elem _ _ Hrf) Hmap)
    as (v & Hv & ->).
  pose proof (getDataValue_region e rf row v Hrf Hv) as Hcase.
  rewrite Hcell in Hcase. by subst v.
Qed.

End Properties.

(** ** The properties on the sample data *)

Section OnSampleData.
#[local] Existing Instance sampleImports.



(** The read of the table finds the members of [Object.prototype]: a row
    whose region string is [constructor] is kept, with the inherited member
    under the region field. *)
Lemma inherited_name_row_is_kept :
  COUNTRY_CODES !! "constructor" = None
  ∧ dataValues <$> getVegaLiteSpec (DataArray countryValue constructorRows)
    = Ok (JArray [object [("country", JBuiltin "Object"); ("value", JNumber 1)]]).
Proof. split; vm_compute; reflexivity. Qed.

Lemma known_region_is_replaced_france :
  uniqueNames countryValue
  ∧ validInput (DataArray countryValue scenarioRows) = true
  ∧ getRegionField countryValue = Some countryField
  ∧ sampleRow (QString "France") (QNumber 10) ∈ scenarioRows
  ∧ sampleRow (QString "France") (QNumber 10) (name countryField) = QString "France"
  ∧ COUNTRY_CODES !! "France" = Some 250%Z
  ∧ ∃ spec mapped m,
      getVegaLiteSpec (DataArray countryValue scenarioRows) = Ok spec
      ∧ dataValues spec = JArray (JObject <$> mapped)
      ∧ m ∈ mapped
      ∧ mapRow countryValue (sampleRow (QString "France") (QNumber 10)) = Ok m
      ∧ m !! name countryField = Some (JNumber 250).
Proof.
  assert (Hin : sampleRow (QString "France") (QNumber 10) ∈ scenarioRows)
    by (apply elem_of_cons; by left).
  repeat (split; [first [done | compute_done]|]).
  apply (known_region_is_replaced countryValue scenarioRows countryField
           (sampleRow (QString "France") (QNumber 10)) "France" 250%Z);
    first [done | compute_done].
Defined.

Lemma three_layers_without_rows :
  validInput (DataArray countryValue atlantisRows) = true
  ∧ dataValues <$> getVegaLiteSpec (DataArray countryValue atlantisRows)
    = Ok (JArray [])
  ∧ ∃ spec rf cf t,
      getVegaLiteSpec (DataArray countryValue atlantisRows) = Ok spec
      ∧ getRegionField countryValue = Some rf
      ∧ getColorField countryValue = Some cf
      ∧ getDataType cf = Ok t
      ∧ member "projection" spec = object [("type", JString "mercator")]
      ∧ member "layer" spec
        = JArray [
        object [
          ("data", object [("sphere", JBool true)]);
          ("mark", object [("type", JString "geoshape"); ("fill", JString "aliceblue")])
        ];
        object [
          ("data", object [
             ("values", world);
             ("format", object [("type", JString "topojson"); ("feature", JString "countries")])
           ]);
          ("mark", object [
             ("type", JString "geoshape");
             ("fill", JString "mintcream");
             ("stroke", JString "black")
           ])
        ];
        object [
          ("transform", JArray [
             object [
               ("lookup", JString (name rf));
               ("from", object [
                  ("data", object [
                     ("values", world);
                     ("format",
                      object [("type", JString "topojson"); ("feature", JString "countries")])
                   ]);
                  ("key", JString "id")
                ]);
               ("as", JString "geo")
             ]
           ]);
          ("mark", JString "geoshape");
          ("encoding", object [
             ("shape", object [("field", JString "geo"); ("type", JString "geojson")]);
             ("color", object [
                ("field", JString (name cf));
                ("type", JString (encodingName t));
                ("axis", object [("title", JString (formatTitle options (name cf)))]);
                ("scale", getColorScale (Some t) false)
              ])
           ])
        ]
      ].
Proof.
  split; [reflexivity|]. split; [vm_compute; reflexivity|].
  apply (three_layers_mercator countryValue atlantisRows).
  reflexivity.
Defined.

Lemma invalid_kind_raises_nested_array :
  getDataValue (DataArray countryValue []) = Throw invalidFieldType
  ∧ getVegaLiteSpec (DataArray countryValue nestedRows) = Throw invalidFieldType
  ∧ failureOf invalidFieldType = Some InvalidFieldType
  ∧ getDataValue (DataString countryField "Atlantis") = Ok JUndefined.
Proof.
  destruct (invalid_kind_raises (H := sampleImports))
    as (Hclass & Hcell & _ & Hrows & _ & _ & Hstring).
  split; [apply Hcell; compute_done|].
  split; [|split; [exact Hclass |
                   apply (Hstring countryField "Atlantis"); reflexivity]].
  apply (Hrows countryValue nestedRows
           (sampleRow (QString "France") (QArray countryValue [])) valueField).
  - simpl. lia.
  - apply elem_of_cons. by left.
  - compute_done.
  - compute_done.
Defined.

Lemma invalid_input_shape_null :
  (isNull (DataNull countryField) = true ∨ isArray (DataNull countryField) = false)
  ∧ ∃ ex,
      getVegaLiteSpec (DataNull countryField) = Throw ex
      ∧ failureOf ex = Some InvalidInputShape
      ∧ ex = (if isNull (DataNull countryField)
              then Error "Expected struct value not to be null."
              else Error "Invalid data for shape map").
Proof.
  split; [left; reflexivity|].
  apply (invalid_input_shape (DataNull countryField)). left. reflexivity.
Defined.

(** C7. The code on a result with the region field only: the color field
    is absent, the guarded classification is skipped, and the unguarded read
    of its name throws the runtime TypeError. *)
Lemma one_field_raises_untyped_error :
  getColorField countryOnly = None
  ∧ getVegaLiteSpec (DataArray countryOnly scenarioRows) = Throw (TypeError "name").
Proof. split; reflexivity. Qed.

Lemma null_cells_are_absent_scenario :
  getDataValue (DataNull valueField) = Ok JUndefined
  ∧ dataValues <$> getVegaLiteSpec (DataArray countryValue scenarioRows)
    = Ok (JArray [
        object [("country", JNumber 250); ("value", JNumber 10)];
        object [("country", JNumber 392); ("value", JUndefined)]
      ]).
Proof.
  destruct (null_cells_are_absent (H := sampleImports))
    as (Hnull & _ & _ & Hscenario).
  split; [apply Hnull|].
  apply Hscenario; reflexivity.
Defined.

Lemma numeric_region_passes_through_unknown_code :
  uniqueNames codeValue
  ∧ validInput (DataArray codeValue [codeRow 999999 7]) = true
  ∧ getDataValue (DataNumber codeField 999999) = Ok (JNumber 999999)
  ∧ ∃ spec mapped m,
      getVegaLiteSpec (DataArray codeValue [codeRow 999999 7]) = Ok spec
      ∧ dataValues spec = JArray (JObject <$> mapped)
      ∧ m ∈ mapped
      ∧ mapRow codeValue (codeRow 999999 7) = Ok m
      ∧ m !! name codeField = Some (JNumber 999999).
Proof.
  destruct (numeric_region_passes_through (H := sampleImports))
    as (Hcell & _ & Hrow).
  split; [compute_done|]. split; [reflexivity|]. split; [apply Hcell|].
  apply (Hrow codeValue [codeRow 999999 7] codeField (codeRow 999999 7) 999999%Z).
  - compute_done.
  - reflexivity.
  - reflexivity.
  - apply elem_of_cons. by left.
  - reflexivity.
Defined.

End OnSampleData.

(** ** Further properties of the renderer: success and failure *)

Section Outcome.
Context `{Imports}.

Lemma getDataType_Ok_classifiable (f : Field) (t : EncodingType) :
  getDataType f = Ok t → classifiable (kind f) = true.
Proof.
  intros Ht. destruct (classifiable (kind f)) eqn:Hk; [reflexivity|].
  rewrite (getDataType_unclassifiable f Hk) in Ht. discriminate.
Qed.

(** A rendered array input was a valid one. *)
Lemma getVegaLiteSpec_Ok_valid (e : Explore) (rows : list QueryDataRow) (spec : Json) :
  getVegaLiteSpec (DataArray e rows) = Ok spec → validInput (DataArray e rows) = true.
Proof.
  intros (rf & cf & t & ms & Hrf & Hcf & Ht & Hms & _)%getVegaLiteSpec_Ok_inv.
  unfold validInput. unfold getColorField, intrinsicFields in Hcf.
  destruct (fieldDefs e) as [|r [|c rest]] eqn:Hdefs; try discriminate.
  injection Hcf as <-. apply getDataType_Ok_classifiable in Ht. simpl in Ht.
  rewrite Ht. simpl.
  apply forallb_forall. intros row Hrow%list_elem_of_In.
  apply forallb_forall. intros f Hf%list_elem_of_In.
  destruct (mappable (row (name f))) eqn:Hbad; [reflexivity|].
  unfold mapData in Hms.
  rewrite (mapRows_unmappable _ _ row f Hrow Hf Hbad) in Hms. discriminate.
Qed.

(** The exception of an array input that is not valid. *)
Lemma getVegaLiteSpec_invalid_array (e : Explore) (rows : list QueryDataRow) :
  validInput (DataArray e rows) = false →
  getVegaLiteSpec (DataArray e rows)
  = Throw (if decide (length (fieldDefs e) < 2)%nat then TypeError "name"
           else invalidFieldType).
Proof.
  intros Hinvalid. case_decide as Hlen.
  - apply fields_short in Hlen. unfold getVegaLiteSpec. cbn [isNull].
    rewrite Hlen. reflexivity.
  - destruct (getVegaLiteSpec (DataArray e rows)) as [spec|ex] eqn:Hspec.
    + apply getVegaLiteSpec_Ok_valid in Hspec. congruence.
    + apply getVegaLiteSpec_Throw_array in Hspec as ->; [reflexivity | lia].
Qed.

(** X1. The call returns a specification exactly on the valid inputs: an
    array of rows over at least two fields, the second of kind string,
    number, date or timestamp, every cell of a declared field a number, a
    string or null. *)
Theorem rendered_iff_valid (data : DataColumn) :
  (∃ spec, getVegaLiteSpec data = Ok spec) ↔ validInput data = true.
Proof.
  split; [|apply getVegaLiteSpec_valid].
  intros [spec Hspec]. destruct data; try discriminate.
  by eapply getVegaLiteSpec_Ok_valid.
Qed.

(** X2. The failure of every input that is not valid, in the order the
    checks are made: a null input and any other non-array throw the two shape
    errors; an array over fewer than two fields throws the TypeError of the
    absent color field, whatever its rows hold; every other array throws the
    invalid-field-type error. *)
Theorem failure_by_precedence (data : DataColumn) :
  validInput data = false →
  getVegaLiteSpec data
  = Throw match data with
          | DataNull _ => Error "Expected struct value not to be null."
          | DataArray e _ =>
              if decide (length (fieldDefs e) < 2)%nat then TypeError "name"
              else invalidFieldType
          | _ => Error "Invalid data for shape map"
          end.
Proof.
  destruct data; try reflexivity. apply getVegaLiteSpec_invalid_array.
Qed.

End Outcome.

(** X3. Whether the call fails, and with which exception, depends on the
    input alone: the Country Code Table, the world dataset, the renderer
    options and the styling helpers have no part in it. *)
Theorem failure_independent_of_imports (I1 I2 : Imports) (data : DataColumn)
    (ex : Exception) :
  @getVegaLiteSpec I1 data = Throw ex ↔ @getVegaLiteSpec I2 data = Throw ex.
Proof.
  assert (Hone : ∀ J1 J2 : Imports,
    @getVegaLiteSpec J1 data = Throw ex → @getVegaLiteSpec J2 data = Throw ex).
  { intros J1 J2 Hthrow.
    destruct (validInput data) eqn:Hvalid.
    - destruct (@getVegaLiteSpec_valid J1 data Hvalid) as [spec Hspec]. congruence.
    - destruct data; try exact Hthrow.
      rewrite (@getVegaLiteSpec_invalid_array J1 _ _ Hvalid) in Hthrow.
      rewrite (@getVegaLiteSpec_invalid_array J2 _ _ Hvalid). exact Hthrow. }
  split; apply Hone.
Qed.

(** ** Further properties: the roles of the fields and the data layer *)

Section Roles.
Context `{Imports}.

Lemma not_region_field (e : Explore) (rf f : Field) :
  getRegionField e = Some rf → f ∈ intrinsicFields e → f ≠ rf →
  isRegionField f = false.
Proof.
  intros Hrf Hf Hne. unfold isRegionField, strict_eq.
  rewrite (parent_intrinsicFields e f Hf), Hrf.
  apply bool_decide_eq_false. congruence.
Qed.

Lemma region_field_unique (e : Explore) (rf f : Field) :
  getRegionField e = Some rf → f ∈ intrinsicFields e →
  isRegionField f = true → f = rf.
Proof.
  intros Hrf Hf. unfold isRegionField, strict_eq.
  rewrite (parent_intrinsicFields e f Hf), Hrf.
  intros Heq%bool_decide_eq_true. congruence.
Qed.

Lemma color_name_not_region (e : Explore) (rf cf : Field) :
  uniqueNames e → getRegionField e = Some rf → getColorField e = Some cf →
  name rf ≠ name cf.
Proof.
  unfold uniqueNames, getRegionField, getColorField, intrinsicFields.
  destruct (fieldDefs e) as [|r [|c rest]]; simpl; try discriminate.
  intros [Hr _]%NoDup_cons [= <-] [= <-]. simpl.
  intros Heq. apply Hr. rewrite Heq. apply elem_of_cons. by left.
Qed.

Lemma getDataType_not_region (f : Field) (t : EncodingType) :
  isRegionField f = false → getDataType f = Ok t →
  t = if isNumber f then quantitative else nominal.
Proof.
  unfold isRegionField, getDataType. intros ->.
  unfold isAtomicField, isDate, isTimestamp, isString, isNumber, hasType.
  destruct (kind f) as [[]| |]; simpl; congruence.
Qed.

(** The properties of the sizing object are those of the specification. *)
Lemma getVegaLiteSpec_size (e : Explore) (rows : list QueryDataRow) (spec : Json)
    (k : string) :
  getVegaLiteSpec (DataArray e rows) = Ok spec →
  k ≠ "data" → k ≠ "projection" → k ≠ "layer" →
  member k spec = get getSize k.
Proof.
  intros Hspec Hdata Hprojection Hlayer.
  unfold getVegaLiteSpec in Hspec. cbn [isNull] in Hspec.
  apply bind_Ok_inv in Hspec as (ct & _ & Hspec).
  apply bind_Ok_inv in Hspec as (cn & _ & Hspec).
  apply bind_Ok_inv in Hspec as (ms & _ & Hspec).
  apply bind_Ok_inv in Hspec as (rn & _ & [= <-]).
  unfold member, get, assign. simpl.
  by rewrite !lookup_insert_ne by done.
Qed.

(** X4. With unique field names the two roles fall on different fields:
    whenever there is a color field there is a region field, of another
    name, and the role test holds of the region field and fails of the color
    field. *)
Theorem roles_are_distinct (e : Explore) (cf : Field) :
  uniqueNames e → getColorField e = Some cf →
  ∃ rf,
    getRegionField e = Some rf
    ∧ name rf ≠ name cf
    ∧ isRegionField rf = true
    ∧ isRegionField cf = false.
Proof.
  intros Hnd Hcf.
  assert (Hrf : ∃ rf, getRegionField e = Some rf).
  { unfold getRegionField, getColorField in *.
    destruct (intrinsicFields e) as [|rf fields]; [discriminate | eauto]. }
  destruct Hrf as [rf Hrf].
  pose proof (color_name_not_region e rf cf Hnd Hrf Hcf) as Hne.
  exists rf. repeat split; try done.
  - by eapply isRegionField_region.
  - eapply not_region_field; [done | by apply getColorField_elem | congruence].
Qed.

(** X5. The classifier never answers ordinal, although its type allows it:
    every classified field is quantitative or nominal. *)
Theorem getDataType_never_ordinal (field : Field) (t : EncodingType) :
  getDataType field = Ok t → t = quantitative ∨ t = nominal.
Proof.
  unfold getDataType.
  repeat (match goal with |- context [if ?b then _ else _] => destruct b end);
    intros [= <-]; auto.
Qed.

(** X6. In every rendered specification of a result with unique field
    names, the third layer looks up the name of the region field in the
    countries of the world dataset and colors by the color field: the color
    encoding names the color field, its type is quantitative for a number
    field and nominal for a string, date or timestamp field (the color field
    is never taken for the region), and the axis title and the scale are those
    the helpers give for that name and type. *)
Theorem color_encoding_of_data_layer (e : Explore) (rows : list QueryDataRow) :
  uniqueNames e →
  validInput (DataArray e rows) = true →
  ∃ spec rf cf,
    getVegaLiteSpec (DataArray e rows) = Ok spec
    ∧ getRegionField e = Some rf
    ∧ getColorField e = Some cf
    ∧ member "layer" spec
      = JArray [
        object [
          ("data", object [("sphere", JBool true)]);
          ("mark", object [("type", JString "geoshape"); ("fill", JString "aliceblue")])
        ];
        object [
          ("data", object [
             ("values", world);
             ("format", object [("type", JString "topojson"); ("feature", JString "countries")])
           ]);
          ("mark", object [
             ("type", JString "geoshape");
             ("fill", JString "mintcream");
             ("stroke", JString "black")
           ])
        ];
        object [
          ("transform", JArray [
             object [
               ("lookup", JString (name rf));
               ("from", object [
                  ("data", object [
                     ("values", world);
                     ("format",
                      object [("type", JString "topojson"); ("feature", JString "countries")])
                   ]);
                  ("key", JString "id")
                ]);
               ("as", JString "geo")
             ]
           ]);
          ("mark", JString "geoshape");
          ("encoding", object [
             ("shape", object [("field", JString "geo"); ("type", JString "geojson")]);
             ("color", object [
                ("field", JString (name cf));
                ("type", JString (if isNumber cf then "quantitative" else "nominal"));
                ("axis", object [("title", JString (formatTitle options (name cf)))]);
                ("scale", getColorScale (Some (if isNumber cf then quantitative else nominal)) false)
              ])
           ])
        ]
      ].
Proof.
  intros Hnd Hvalid.
  destruct (getVegaLiteSpec_valid _ Hvalid) as [spec Hspec].
  destruct (getVegaLiteSpec_Ok_inv e rows spec Hspec)
    as (rf & cf & t & ms & Hrf & Hcf & Ht & _).
  exists spec, rf, cf. repeat split; try done.
  rewrite (getVegaLiteSpec_dataLayer e rows spec rf cf t Hspec Hrf Hcf Ht).
  assert (Hrole : isRegionField cf = false).
  { eapply not_region_field; [done | by apply getColorField_elem |].
    pose proof (color_name_not_region e rf cf Hnd Hrf Hcf). congruence. }
  rewrite (getDataType_not_region cf t Hrole Ht).
  by destruct (isNumber cf).
Qed.

(** X7. Every property of the sizing object of the renderer other than
    data, projection and layer is a property of the rendered specification,
    with the same value. *)
Theorem size_properties_pass_through (data : DataColumn) :
  validInput data = true →
  ∃ spec,
    getVegaLiteSpec data = Ok spec
    ∧ ∀ k, k ≠ "data" → k ≠ "projection" → k ≠ "layer" →
        member k spec = get getSize k.
Proof.
  intros Hvalid.
  destruct (getVegaLiteSpec_valid _ Hvalid) as [spec Hspec].
  destruct data as [| | | | | | |e rows]; try discriminate.
  exists spec. split; [done|].
  intros k. by apply (getVegaLiteSpec_size e rows).
Qed.

End Roles.

(** ** Further properties: the values of the data block *)

Section Values.
Context `{Imports}.

(** X8. In every rendered specification of a result with unique field
    names, each row of the data block holds under the region field a value
    that is not absent: a number (the number of the cell, or the identifier
    of the table), or, for a region string without an entry in the table that
    names a member of [Object.prototype], that inherited member. *)
Theorem surviving_regions_are_defined (e : Explore) (rows : list QueryDataRow) :
  uniqueNames e →
  validInput (DataArray e rows) = true →
  ∃ spec rf mapped,
    getVegaLiteSpec (DataArray e rows) = Ok spec
    ∧ getRegionField e = Some rf
    ∧ dataValues spec = JArray (JObject <$> mapped)
    ∧ Forall (λ m : gmap string Json,
        ∃ v, m !! name rf = Some v
             ∧ isUndefined v = false
             ∧ ((∃ n, v = JNumber n)
                ∨ (∃ s, COUNTRY_CODES !! s = None ∧ objectPrototype !! s = Some v)))
        mapped.
Proof.
  intros Hnd Hvalid.
  destruct (getVegaLiteSpec_valid _ Hvalid) as [spec Hspec].
  destruct (getVegaLiteSpec_values e rows spec Hnd Hspec)
    as (rf & mapped & Hrf & Hvalues & Hall).
  exists spec, rf, mapped. repeat split; try done.
  eapply Forall2_Forall_r; [exact Hall|].
  apply Forall_forall. intros row [Hkept _]%list_elem_of_filter m Hm.
  unfold uniqueNames in Hnd. rewrite <- names_intrinsicFields in Hnd.
  destruct (mapFields_lookup _ _ _ _ rf Hnd (getRegionField_elem _ _ Hrf) Hm)
    as (v & Hv & ->).
  pose proof (getDataValue_region e rf row v Hrf Hv) as Hcase.
  unfold regionKept in Hkept.
  destruct (row (name rf)); try done; subst v.
  - exists (JNumber n). eauto.
  - exists (propertyOf COUNTRY_CODES s). split; [done|].
    split; [by destruct (isUndefined _)|]. unfold propertyOf in *.
    destruct (COUNTRY_CODES !! s) as [id|] eqn:Hs; [eauto|].
    destruct (objectPrototype !! s) as [v|] eqn:Hproto; [eauto | done].
Qed.

(** X9. A string cell of a field other than the region field is never
    looked up in the Country Code Table: its value is the string itself, also
    when the table has an entry for it, and with unique field names the
    record of the row holds that string under the field. *)
Theorem other_strings_pass_through (e : Explore) (rf f : Field)
    (row : QueryDataRow) (s : string) :
  getRegionField e = Some rf →
  f ∈ intrinsicFields e → f ≠ rf →
  row (name f) = QString s →
  getDataValue (cell row f) = Ok (JString s)
  ∧ (uniqueNames e → ∀ m, mapRow e row = Ok m → m !! name f = Some (JString s)).
Proof.
  intros Hrf Hf Hne Hcell.
  assert (Hvalue : getDataValue (cell row f) = Ok (JString s)).
  { unfold cell. rewrite Hcell. simpl.
    pose proof (not_region_field e rf f Hrf Hf Hne) as Hrole.
    unfold isRegionField in Hrole. by rewrite Hrole. }
  split; [done|]. intros Hnd m Hm.
  unfold uniqueNames in Hnd. rewrite <- names_intrinsicFields in Hnd.
  destruct (mapFields_lookup _ _ _ _ f Hnd Hf Hm) as (v & Hv & ->). congruence.
Qed.

(** X10. The value mapper has no rule for booleans, dates and timestamps:
    on an array input over at least two fields, one such cell under a
    declared field aborts the call with the invalid-field-type error, also
    when the field is a date or timestamp field the classifier accepts. *)
Theorem date_cells_abort_render (e : Explore) (rows : list QueryDataRow)
    (row : QueryDataRow) (f : Field) :
  (2 ≤ length (fieldDefs e))%nat →
  row ∈ rows → f ∈ intrinsicFields e →
  cellKind (cell row f) ∈ [BooleanCell; DateCell; TimestampCell] →
  getVegaLiteSpec (DataArray e rows) = Throw invalidFieldType.
Proof.
  intros Htwo Hrow Hf Hkind.
  assert (Hinvalid : validInput (DataArray e rows) = false).
  { destruct (validInput (DataArray e rows)) eqn:Hvalid; [|reflexivity].
    destruct (getVegaLiteSpec_valid _ Hvalid) as [spec Hspec].
    apply getVegaLiteSpec_Ok_inv in Hspec as (_ & _ & _ & ms & _ & _ & _ & Hms & _).
    unfold mapData in Hms. rewrite (mapRows_unmappable _ _ row f Hrow Hf) in Hms.
    - discriminate.
    - unfold cell in Hkind. destruct (row (name f)); simpl in *; try reflexivity;
        exfalso; revert Hkind; compute_done. }
  rewrite (getVegaLiteSpec_invalid_array e rows Hinvalid).
  case_decide; [lia | reflexivity].
Qed.

(** X11. When every region cell is null or a string that neither has an
    entry in the Country Code Table nor names a member of
    [Object.prototype], and also when there is no row at all, a valid input
    is still rendered and its data block is the empty array. *)
Theorem no_survivor_empty_data (e : Explore) (rows : list QueryDataRow) (rf : Field) :
  uniqueNames e →
  validInput (DataArray e rows) = true →
  getRegionField e = Some rf →
  Forall (λ row : QueryDataRow,
    row (name rf) = QNull
    ∨ ∃ s, row (name rf) = QString s
           ∧ COUNTRY_CODES !! s = None ∧ objectPrototype !! s = None) rows →
  dataValues <$> getVegaLiteSpec (DataArray e rows) = Ok (JArray []).
Proof.
  intros Hnd Hvalid Hrf Hnone.
  destruct (getVegaLiteSpec_valid _ Hvalid) as [spec Hspec].
  destruct (getVegaLiteSpec_values e rows spec Hnd Hspec)
    as (rf' & mapped & Hrf' & Hvalues & Hall).
  assert (rf' = rf) as -> by congruence.
  assert (Hfilter : filter (λ row, regionKept rf row) rows = []).
  { destruct (filter _ rows) as [|row survivors] eqn:Hsurvivors; [reflexivity|].
    assert (Hin : row ∈ filter (λ row, regionKept rf row) rows)
      by (rewrite Hsurvivors; apply elem_of_cons; by left).
    apply list_elem_of_filter in Hin as [Hkept Hin].
    rewrite Forall_forall in Hnone. unfold regionKept, propertyOf in Hkept.
    destruct (Hnone row Hin) as [Hcell | (s & Hcell & Hs & Hproto)];
      rewrite Hcell in Hkept; [done|].
    rewrite Hs, Hproto in Hkept. done. }
  rewrite Hfilter in Hall. apply Forall2_nil_inv_l in Hall as ->.
  rewrite Hspec. simpl. by rewrite Hvalues.
Qed.

End Values.

(** ** Further properties: extending the Country Code Table *)

Lemma Forall2_filter_sublist {A B : Type} (R1 R2 : A → B → Prop)
    (P1 P2 : A → Prop) `{!∀ x, Decision (P1 x)} `{!∀ x, Decision (P2 x)}
    (l : list A) (k1 k2 : list B) :
  (∀ x, P1 x → P2 x) →
  (∀ x y1 y2, P1 x → R1 x y1 → R2 x y2 → y1 = y2) →
  Forall2 R1 (filter P1 l) k1 → Forall2 R2 (filter P2 l) k2 →
  k1 `sublist_of` k2.
Proof.
  intros Hmono Hsame. revert k1 k2.
  induction l as [|x l IH]; intros k1 k2.
  - intros ->%Forall2_nil_inv_l ->%Forall2_nil_inv_l. constructor.
  - rewrite !filter_cons.
    destruct (decide (P1 x)) as [H1|H1], (decide (P2 x)) as [H2|H2].
    + intros (y1 & k1' & Hy1 & Hk1 & ->)%Forall2_cons_inv_l
             (y2 & k2' & Hy2 & Hk2 & ->)%Forall2_cons_inv_l.
      rewrite (Hsame x y1 y2 H1 Hy1 Hy2). apply sublist_skip. by apply IH.
    + by destruct H2; apply Hmono.
    + intros Hk1 (y2 & k2' & Hy2 & Hk2 & ->)%Forall2_cons_inv_l.
      apply sublist_cons. by apply IH.
    + apply IH.
Qed.

Section TableExtension.
Context (I1 I2 : Imports).
Hypothesis extension : @COUNTRY_CODES I1 ⊆ @COUNTRY_CODES I2.
Hypothesis countryNames : ∀ s,
  @COUNTRY_CODES I1 !! s = None → is_Some (@COUNTRY_CODES I2 !! s) →
  objectPrototype !! s = None.

(** A read that the smaller table answers is answered alike by the larger. *)
Lemma propertyOf_extension (s : string) :
  isUndefined (propertyOf (@COUNTRY_CODES I1) s) = false →
  propertyOf (@COUNTRY_CODES I2) s = propertyOf (@COUNTRY_CODES I1) s.
Proof.
  unfold propertyOf.
  destruct (@COUNTRY_CODES I1 !! s) as [id|] eqn:H1.
  - by rewrite (lookup_weaken _ _ _ _ H1 extension).
  - destruct (@COUNTRY_CODES I2 !! s) as [id|] eqn:H2; [|done].
    rewrite (countryNames s H1) by eauto. done.
Qed.

Lemma regionKept_extension (rf : Field) (row : QueryDataRow) :
  @regionKept I1 rf row = true → @regionKept I2 rf row = true.
Proof.
  unfold regionKept. destruct (row (name rf)); try done.
  intros Hkept. apply negb_true_iff in Hkept.
  by rewrite (propertyOf_extension s Hkept), Hkept.
Qed.

Lemma getDataValue_extension (e : Explore) (rf f : Field) (row : QueryDataRow) :
  getRegionField e = Some rf → f ∈ intrinsicFields e →
  @regionKept I1 rf row = true →
  @getDataValue I2 (cell row f) = @getDataValue I1 (cell row f).
Proof.
  intros Hrf Hf Hkept. unfold cell.
  destruct (row (name f)) eqn:Hcell; simpl; try reflexivity.
  destruct (strict_eq f (getRegionField (parentExplore f))) eqn:Hrole; [|reflexivity].
  apply (region_field_unique e rf f Hrf Hf) in Hrole as ->.
  unfold regionKept in Hkept. rewrite Hcell in Hkept.
  apply negb_true_iff in Hkept. by rewrite (propertyOf_extension s Hkept).
Qed.

Lemma mapFields_extension (e : Explore) (rf : Field) (row : QueryDataRow)
    (fields : list Field) (acc : gmap string Json) :
  getRegionField e = Some rf → fields ⊆ intrinsicFields e →
  @regionKept I1 rf row = true →
  @mapFields I2 row fields acc = @mapFields I1 row fields acc.
Proof.
  intros Hrf Hsub Hkept. revert acc.
  induction fields as [|f fields IH]; intros acc; [reflexivity|].
  simpl. rewrite (getDataValue_extension e rf f row Hrf) by set_solver.
  destruct (@getDataValue I1 (cell row f)); simpl; [|reflexivity].
  apply IH. set_solver.
Qed.

(** X12. Extending the Country Code Table by entries that are not named like
    members of [Object.prototype] only adds rows to the map: on a valid input
    with unique field names, the rows of the data block rendered with a table
    are, unchanged and in the same order, among the rows rendered with any
    such table that extends it. *)
Theorem table_extension_keeps_rows (e : Explore) (rows : list QueryDataRow) :
  uniqueNames e →
  validInput (DataArray e rows) = true →
  ∃ mapped1 mapped2,
    dataValues <$> @getVegaLiteSpec I1 (DataArray e rows)
    = Ok (JArray (JObject <$> mapped1))
    ∧ dataValues <$> @getVegaLiteSpec I2 (DataArray e rows)
      = Ok (JArray (JObject <$> mapped2))
    ∧ mapped1 `sublist_of` mapped2.
Proof.
  intros Hnd Hvalid.
  destruct (@getVegaLiteSpec_valid I1 _ Hvalid) as [spec1 Hspec1].
  destruct (@getVegaLiteSpec_valid I2 _ Hvalid) as [spec2 Hspec2].
  destruct (@getVegaLiteSpec_values I1 e rows spec1 Hnd Hspec1)
    as (rf & mapped1 & Hrf & Hvalues1 & Hall1).
  destruct (@getVegaLiteSpec_values I2 e rows spec2 Hnd Hspec2)
    as (rf' & mapped2 & Hrf' & Hvalues2 & Hall2).
  assert (rf' = rf) as -> by congruence.
  exists mapped1, mapped2.
  rewrite Hspec1, Hspec2. simpl. rewrite Hvalues1, Hvalues2.
  repeat split.
  eapply Forall2_filter_sublist; [| |exact Hall1|exact Hall2].
  - intros row Hp. apply Is_true_true in Hp. apply Is_true_true.
    by apply regionKept_extension.
  - intros row m1 m2 Hp%Is_true_true Hm1 Hm2. unfold mapRow in *.
    rewrite (mapFields_extension e rf row _ _ Hrf) in Hm2 by done.
    congruence.
Qed.

End TableExtension.

(** ** The further properties on the sample data *)

Section FurtherOnSampleData.
#[local] Existing Instance sampleImports.

Lemma failure_by_precedence_one_field :
  validInput (DataArray countryOnly nestedRows) = false
  ∧ getVegaLiteSpec (DataArray countryOnly nestedRows) = Throw (TypeError "name").
Proof.
  split; [reflexivity|].
  apply (failure_by_precedence (DataArray countryOnly nestedRows)). reflexivity.
Defined.

Lemma roles_are_distinct_country_value :
  uniqueNames countryValue
  ∧ getColorField countryValue = Some valueField
  ∧ ∃ rf,
      getRegionField countryValue = Some rf
      ∧ name rf ≠ name valueField
      ∧ isRegionField rf = true
      ∧ isRegionField valueField = false.
Proof.
  split; [compute_done|]. split; [reflexivity|].
  apply (roles_are_distinct countryValue valueField); [compute_done | reflexivity].
Defined.

Lemma getDataType_never_ordinal_value :
  getDataType valueField = Ok quantitative
  ∧ (quantitative = quantitative ∨ quantitative = nominal).
Proof.
  split; [reflexivity|].
  apply (getDataType_never_ordinal valueField quantitative). reflexivity.
Defined.

Lemma color_encoding_of_string_color :
  uniqueNames countryLabel
  ∧ validInput (DataArray countryLabel [labelRow (QString "France") (QString "France")])
    = true
  ∧ isNumber labelField = false
  ∧ ∃ spec rf cf,
      getVegaLiteSpec (DataArray countryLabel [labelRow (QString "France") (QString "France")])
      = Ok spec
      ∧ getRegionField countryLabel = Some rf
      ∧ getColorField countryLabel = Some cf
      ∧ member "layer" spec
        = JArray [
        object [
          ("data", object [("sphere", JBool true)]);
          ("mark", object [("type", JString "geoshape"); ("fill", JString "aliceblue")])
        ];
        object [
          ("data", object [
             ("values", world);
             ("format", object [("type", JString "topojson"); ("feature", JString "countries")])
           ]);
          ("mark", object [
             ("type", JString "geoshape");
             ("fill", JString "mintcream");
             ("stroke", JString "black")
           ])
        ];
        object [
          ("transform", JArray [
             object [
               ("lookup", JString (name rf));
               ("from", object [
                  ("data", object [
                     ("values", world);
                     ("format",
                      object [("type", JString "topojson"); ("feature", JString "countries")])
                   ]);
                  ("key", JString "id")
                ]);
               ("as", JString "geo")
             ]
           ]);
          ("mark", JString "geoshape");
          ("encoding", object [
             ("shape", object [("field", JString "geo"); ("type", JString "geojson")]);
             ("color", object [
                ("field", JString (name cf));
                ("type", JString (if isNumber cf then "quantitative" else "nominal"));
                ("axis", object [("title", JString (formatTitle options (name cf)))]);
                ("scale", getColorScale (Some (if isNumber cf then quantitative else nominal)) false)
              ])
           ])
        ]
      ].
Proof.
  split; [compute_done|]. split; [reflexivity|]. split; [reflexivity|].
  apply (color_encoding_of_data_layer countryLabel
           [labelRow (QString "France") (QString "France")]);
    [compute_done | reflexivity].
Defined.

Lemma size_properties_pass_through_scenario :
  validInput (DataArray countryValue scenarioRows) = true
  ∧ ∃ spec,
      getVegaLiteSpec (DataArray countryValue scenarioRows) = Ok spec
      ∧ ∀ k, k ≠ "data" → k ≠ "projection" → k ≠ "layer" →
          member k spec = get getSize k.
Proof.
  split; [reflexivity|].
  apply (size_properties_pass_through (DataArray countryValue scenarioRows)).
  reflexivity.
Defined.

Lemma surviving_regions_are_defined_mixed :
  uniqueNames countryValue
  ∧ validInput (DataArray countryValue mixedRows) = true
  ∧ ∃ spec rf mapped,
      getVegaLiteSpec (DataArray countryValue mixedRows) = Ok spec
      ∧ getRegionField countryValue = Some rf
      ∧ dataValues spec = JArray (JObject <$> mapped)
      ∧ Forall (λ m : gmap string Json,
          ∃ v, m !! name rf = Some v
               ∧ isUndefined v = false
               ∧ ((∃ n, v = JNumber n)
                  ∨ (∃ s, COUNTRY_CODES !! s = None ∧ objectPrototype !! s = Some v)))
          mapped.
Proof.
  split; [compute_done|]. split; [reflexivity|].
  apply (surviving_regions_are_defined countryValue mixedRows);
    [compute_done | reflexivity].
Defined.

Lemma other_strings_pass_through_label :
  getRegionField countryLabel = Some labelCountryField
  ∧ labelField ∈ intrinsicFields countryLabel
  ∧ labelField ≠ labelCountryField
  ∧ COUNTRY_CODES !! "France" = Some 250%Z
  ∧ getDataValue (cell (labelRow (QString "Japan") (QString "France")) labelField)
    = Ok (JString "France")
  ∧ (uniqueNames countryLabel →
     ∀ m, mapRow countryLabel (labelRow (QString "Japan") (QString "France")) = Ok m →
          m !! name labelField = Some (JString "France")).
Proof.
  assert (Hin : labelField ∈ intrinsicFields countryLabel)
    by (apply elem_of_cons; right; apply elem_of_cons; by left).
  assert (Hne : labelField ≠ labelCountryField) by discriminate.
  split; [reflexivity|]. split; [exact Hin|]. split; [exact Hne|].
  split; [reflexivity|].
  apply (other_strings_pass_through countryLabel labelCountryField labelField
           (labelRow (QString "Japan") (QString "France")) "France");
    [reflexivity | exact Hin | exact Hne | reflexivity].
Defined.

Lemma date_cells_abort_render_day :
  (2 ≤ length (fieldDefs countryDay))%nat
  ∧ getDataType dayField = Ok nominal
  ∧ getVegaLiteSpec (DataArray countryDay [dayRow (QString "France") (QDate 19000)])
    = Throw invalidFieldType.
Proof.
  split; [simpl; lia|]. split; [reflexivity|].
  apply (date_cells_abort_render countryDay
           [dayRow (QString "France") (QDate 19000)]
           (dayRow (QString "France") (QDate 19000)) dayField).
  - simpl. lia.
  - apply elem_of_cons. by left.
  - apply elem_of_cons. right. apply elem_of_cons. by left.
  - compute_done.
Defined.

Lemma no_survivor_empty_data_lost_rows :
  uniqueNames countryValue
  ∧ validInput (DataArray countryValue lostRows) = true
  ∧ getRegionField countryValue = Some countryField
  ∧ dataValues <$> getVegaLiteSpec (DataArray countryValue lostRows) = Ok (JArray []).
Proof.
  split; [compute_done|]. split; [reflexivity|]. split; [reflexivity|].
  apply (no_survivor_empty_data countryValue lostRows countryField);
    [compute_done | reflexivity | reflexivity |].
  constructor; [|constructor; [|constructor]].
  - right. exists "Atlantis". repeat split; reflexivity.
  - left. reflexivity.
Defined.

Lemma table_extension_keeps_rows_atlantis :
  @COUNTRY_CODES sampleImports ⊆ @COUNTRY_CODES extendedImports
  ∧ uniqueNames countryValue
  ∧ validInput (DataArray countryValue scenarioRows) = true
  ∧ ∃ mapped1 mapped2,
      dataValues <$> @getVegaLiteSpec sampleImports (DataArray countryValue scenarioRows)
      = Ok (JArray (JObject <$> mapped1))
      ∧ dataValues <$> @getVegaLiteSpec extendedImports (DataArray countryValue scenarioRows)
        = Ok (JArray (JObject <$> mapped2))
      ∧ mapped1 `sublist_of` mapped2.
Proof.
  assert (Hext : @COUNTRY_CODES sampleImports ⊆ @COUNTRY_CODES extendedImports)
    by (apply insert_subseteq; reflexivity).
  assert (Hnames : ∀ s,
    @COUNTRY_CODES sampleImports !! s = None →
    is_Some (@COUNTRY_CODES extendedImports !! s) →
    objectPrototype !! s = None).
  { intros s Hnone [id Hsome]. simpl in Hnone, Hsome.
    destruct (decide (s = "Atlantis")) as [->|Hne]; [reflexivity|].
    rewrite lookup_insert_ne in Hsome by done. congruence. }
  split; [exact Hext|]. split; [compute_done|]. split; [reflexivity|].
  apply (table_extension_keeps_rows sampleImports extendedImports Hext Hnames
           countryValue scenarioRows); [compute_done | reflexivity].
Defined.

End FurtherOnSampleData.
